(** * User_Setup.h: the display configuration header of home-dash

    [src/display/User_Setup.h] is the set-up header that the TFT driver
    library reads when the firmware is compiled.  It holds no functions: its
    whole meaning is the table of macros that the C preprocessor builds from
    it.  The development therefore embeds

    - the header itself, line by line, as a list of strings ([Header]);
    - what the preprocessor does with such a file: dropping [//] comments,
      recognising directives, splitting a [#define] into its name and its
      replacement text ([Cpp]);
    - the macro table and the configuration read from it ([Setup]);

    and proves the properties of the configuration on the table computed from
    the text. *)

From Stdlib Require Import String Ascii List ZArith Bool Arith Lia.
From Stdlib Require Import DecimalString Permutation.
Import ListNotations.
Open Scope string_scope.

(** ** The text of the header *)

Module Header.

(** The double quote character, written by its code. *)
Definition dquote : ascii := "034"%char.

(** [quoted s] is the C string literal whose content is [s]. *)
Definition quoted (s : string) : string :=
  String dquote (s ++ String dquote EmptyString).

(** A run of bytes given by their codes (for the one non-ASCII character of
    the file, the four UTF-8 bytes of a pointing-hand pictograph). *)
Fixpoint bytes (l : list nat) : string :=
  match l with
  | [] => EmptyString
  | b :: l' => String (ascii_of_nat b) (bytes l')
  end.

(** The 46 lines of [User_Setup.h], in order, without their line ends. *)
Definition User_Setup_h : list string := [
  (*  1 *) "//                            USER DEFINED SETTINGS";
  (*  2 *) "//   Set driver type, fonts to be loaded, pins used and SPI control method etc.";
  (*  3 *) "//";
  (*  4 *) "//   See the User_Setup_Select.h file if you wish to be able to define multiple";
  (*  5 *) "//   setups and then easily select which setup file is used by the compiler.";
  (*  6 *) "//";
  (*  7 *) "//   If this file is edited correctly then all the library example sketches should";
  (*  8 *) "//   run without the need to make any more changes for a particular hardware setup!";
  (*  9 *) "//   Note that some sketches are designed for a particular TFT pixel width/height";
  (* 10 *) EmptyString;
  (* 11 *) "// Define to disable all #warnings in library (can be put in User_Setup_Select.h)";
  (* 12 *) "//#define DISABLE_ALL_LIBRARY_WARNINGS";
  (* 13 *) EmptyString;
  (* 14 *) "// ##################################################################################";
  (* 15 *) "//";
  (* 16 *) "// Section 1. Call up the right driver file and any options for it";
  (* 17 *) "//";
  (* 18 *) "// ##################################################################################";
  (* 19 *) EmptyString;
  (* 20 *) "// === BatController (ST7735S 160x128) ===";
  (* 21 *) "#define USER_SETUP_INFO " ++ quoted "BatController ST7735 160x128";
  (* 22 *) EmptyString;
  (* 23 *) "#define ST7735_DRIVER";
  (* 24 *) "#define TFT_WIDTH   128";
  (* 25 *) "#define TFT_HEIGHT  160";
  (* 26 *) EmptyString;
  (* 27 *) "#define LOAD_GLCD    // Font 1 (classic 8x6) - always good to have";
  (* 28 *) "#define LOAD_FONT2   // Font 2 (small 16px) - what we're using in the sketch";
  (* 29 *) EmptyString;
  (* 30 *) "// pick ONE tab; GREENTAB is common for 160x128";
  (* 31 *) "// #define ST7735_GREENTAB";
  (* 32 *) "#define ST7735_BLACKTAB";
  (* 33 *) "// #define ST7735_REDTAB";
  (* 34 *) EmptyString;
  (* 35 *) "// " ++ bytes [240; 159; 145; 135] ++ " THIS is the key line for your colors:";
  (* 36 *) "#define TFT_RGB_ORDER TFT_BGR";
  (* 37 *) EmptyString;
  (* 38 *) "// (keep your working pins)";
  (* 39 *) "#define TFT_MOSI 21";
  (* 40 *) "#define TFT_SCLK 22";
  (* 41 *) "#define TFT_CS   -1";
  (* 42 *) "#define TFT_DC    5";
  (* 43 *) "#define TFT_RST  17";
  (* 44 *) "#define TFT_BL    0";
  (* 45 *) EmptyString;
  (* 46 *) "#define SPI_FREQUENCY 27000000"
].

End Header.

(** ** The preprocessor, as far as a set-up header needs it *)

Module Cpp.

Definition is_space (c : ascii) : bool :=
  (c =? " ")%char || (c =? "009")%char.

Definition is_digit (c : ascii) : bool :=
  let n := nat_of_ascii c in ((48 <=? n) && (n <=? 57))%nat.

Definition is_ident_start (c : ascii) : bool :=
  let n := nat_of_ascii c in
  (((65 <=? n) && (n <=? 90)) || ((97 <=? n) && (n <=? 122)) || (n =? 95))%nat.

Definition is_ident_char (c : ascii) : bool :=
  is_ident_start c || is_digit c.

(** Leading and trailing blanks carry no meaning in a directive. *)
Fixpoint ltrim (s : string) : string :=
  match s with
  | String c s' => if is_space c then ltrim s' else s
  | EmptyString => EmptyString
  end.

Fixpoint rtrim (s : string) : string :=
  match s with
  | EmptyString => EmptyString
  | String c s' =>
      match rtrim s' with
      | EmptyString => if is_space c then EmptyString else String c EmptyString
      | r => String c r
      end
  end.

Definition trim (s : string) : string := rtrim (ltrim s).

(** [strip_comment in_str s] cuts [s] at the first [//] that is not inside
    a string literal; [in_str] tells whether the scan is inside one.  A
    backslash inside a literal protects the character after it. *)
Fixpoint strip_comment (in_str : bool) (s : string) : string :=
  match s with
  | EmptyString => EmptyString
  | String c s' =>
      if in_str then
        match s' with
        | String d s'' =>
            if (c =? "092")%char
            then String c (String d (strip_comment true s''))
            else String c (strip_comment (negb (c =? Header.dquote)%char) s')
        | EmptyString => String c EmptyString
        end
      else if (c =? "/")%char then
        match s' with
        | String "/"%char _ => EmptyString
        | _ => String c (strip_comment false s')
        end
      else String c (strip_comment (c =? Header.dquote)%char s')
  end.

(** The longest prefix of identifier characters, and what follows it. *)
Fixpoint span_ident (s : string) : string * string :=
  match s with
  | String c s' =>
      if is_ident_char c
      then let (w, r) := span_ident s' in (String c w, r)
      else (EmptyString, s)
  | EmptyString => (EmptyString, EmptyString)
  end.

(** What one physical line is to the preprocessor. *)
Inductive line :=
| Blank                                   (* nothing at all *)
| Comment                                 (* nothing but a comment *)
| Define (name : string) (body : string)  (* #define name body *)
| Directive (word : string)               (* any other # directive *)
| Code (text : string).                   (* anything handed on to the compiler *)

Definition classify (l : string) : line :=
  match trim l with
  | EmptyString => Blank
  | _ =>
      match trim (strip_comment false l) with
      | EmptyString => Comment
      | String "#"%char r =>
          let (word, rest) := span_ident (ltrim r) in
          if (word =? "define")%string then
            let (name, body) := span_ident (ltrim rest) in
            match name with
            | String c _ =>
                if is_ident_start c then Define name (ltrim body)
                else Directive word
            | EmptyString => Directive word
            end
          else Directive word
      | t => Code t
      end
  end.

(** The replacement text of a macro, read as the constant it stands for. *)
Inductive value :=
| VFlag                 (* empty: the macro only says "defined" *)
| VInt (z : Z)          (* an integer constant, possibly negated *)
| VStr (s : string)     (* a string literal *)
| VSym (s : string)     (* a single identifier *)
| VRaw (s : string).    (* any other token sequence *)

Fixpoint all_chars (p : ascii -> bool) (s : string) : bool :=
  match s with
  | EmptyString => true
  | String c s' => p c && all_chars p s'
  end.

(** Digits of a literal in base [base], most significant first. *)
Fixpoint digits_value (base : Z) (acc : Z) (s : string) : option Z :=
  match s with
  | EmptyString => Some acc
  | String c s' =>
      let d := (Z.of_nat (nat_of_ascii c) - 48)%Z in
      if is_digit c && (d <? base)%Z
      then digits_value base (base * acc + d)%Z s'
      else None
  end.

(** An unsuffixed C integer constant: a leading 0 announces octal. *)
Definition int_literal (s : string) : option Z :=
  match s with
  | EmptyString => None
  | String "0"%char s' => digits_value 8 0 s'
  | _ => digits_value 10 0 s
  end.

(** The content of a string literal without escapes. *)
Fixpoint str_content (s : string) : option string :=
  match s with
  | EmptyString => None
  | String c EmptyString =>
      if (c =? Header.dquote)%char then Some EmptyString else None
  | String c s' =>
      if (c =? Header.dquote)%char || (c =? "092")%char then None
      else option_map (String c) (str_content s')
  end.

Definition read_value (body : string) : value :=
  match body with
  | EmptyString => VFlag
  | String c r =>
      if (c =? "-")%char then
        match int_literal (ltrim r) with
        | Some z => VInt (- z)
        | None => VRaw body
        end
      else if is_digit c then
        match int_literal body with
        | Some z => VInt z
        | None => VRaw body
        end
      else if (c =? Header.dquote)%char then
        match str_content r with
        | Some t => VStr t
        | None => VRaw body
        end
      else if is_ident_start c && all_chars is_ident_char r then VSym body
      else VRaw body
  end.

(** The macros a list of lines defines, in the order of their directives. *)
Fixpoint defines (ls : list line) : list (string * value) :=
  match ls with
  | [] => []
  | Define n b :: ls' => (n, read_value b) :: defines ls'
  | _ :: ls' => defines ls'
  end.

(** The value the preprocessor holds for [n]: [None] when [n] is not
    defined. *)
Fixpoint lookup (n : string) (t : list (string * value)) : option value :=
  match t with
  | [] => None
  | (m, v) :: t' => if (m =? n)%string then Some v else lookup n t'
  end.

Definition defined (n : string) (t : list (string * value)) : bool :=
  match lookup n t with Some _ => true | None => false end.

(** How many [#define] directives of the table carry the name [n]. *)
Definition count_defs (n : string) (t : list (string * value)) : nat :=
  List.length (filter (fun d => (fst d =? n)%string) t).

End Cpp.

(** ** The configuration that [User_Setup.h] gives the driver library *)

Module Setup.

Import Cpp.

Definition lines : list line := map classify Header.User_Setup_h.

(** The macro table the preprocessor holds after reading the header. *)
Definition macros : list (string * value) := defines lines.

Definition flag (n : string) : bool := defined n macros.

Definition int_macro (n : string) : option Z :=
  match lookup n macros with
  | Some (VInt z) => Some z
  | _ => None
  end.

Definition str_macro (n : string) : option string :=
  match lookup n macros with
  | Some (VStr t) => Some t
  | _ => None
  end.

(** *** Section 1 of the header: driver, geometry, fonts, tab, colours *)

Definition USER_SETUP_INFO : option string := str_macro "USER_SETUP_INFO".

Definition ST7735_DRIVER : bool := flag "ST7735_DRIVER".
Definition TFT_WIDTH : option Z := int_macro "TFT_WIDTH".
Definition TFT_HEIGHT : option Z := int_macro "TFT_HEIGHT".

Definition LOAD_GLCD : bool := flag "LOAD_GLCD".
Definition LOAD_FONT2 : bool := flag "LOAD_FONT2".

Definition ST7735_GREENTAB : bool := flag "ST7735_GREENTAB".
Definition ST7735_BLACKTAB : bool := flag "ST7735_BLACKTAB".
Definition ST7735_REDTAB : bool := flag "ST7735_REDTAB".

(** [ends_with suf s]: [s] ends in [suf]. *)
Fixpoint ends_with (suf s : string) : bool :=
  (s =? suf)%string ||
  match s with
  | EmptyString => false
  | String _ s' => ends_with suf s'
  end.

(** [contains p s]: [p] occurs somewhere in [s]. *)
Fixpoint contains (p s : string) : bool :=
  prefix p s ||
  match s with
  | EmptyString => false
  | String _ s' => contains p s'
  end.

Definition member (n : string) (l : list string) : bool :=
  existsb (String.eqb n) l.

(** The library names its controllers [<chip>_DRIVER]; a set-up file picks
    one by defining that name with no value. *)
Definition driver_suffix : string := "_DRIVER".

Definition driver_flags : list (string * value) :=
  filter (fun d => ends_with driver_suffix (fst d)) macros.

(** The chip a driver flag stands for: the flag without its suffix. *)
Definition driver_chip (n : string) : string :=
  substring 0 (String.length n - String.length driver_suffix) n.

(** The three tab variants that the header offers for the ST7735. *)
Definition tab_names : list string :=
  ["ST7735_GREENTAB"; "ST7735_BLACKTAB"; "ST7735_REDTAB"].

Definition tab_flags : list (string * value) :=
  filter (fun d => member (fst d) tab_names) macros.

(** The two colour orders; the header refers to them by name only. *)
Inductive color_order := TFT_RGB | TFT_BGR.

Definition color_order_of (v : value) : option color_order :=
  match v with
  | VSym n =>
      if (n =? "TFT_RGB")%string then Some TFT_RGB
      else if (n =? "TFT_BGR")%string then Some TFT_BGR
      else None
  | _ => None
  end.

Definition TFT_RGB_ORDER : option color_order :=
  match lookup "TFT_RGB_ORDER" macros with
  | Some v => color_order_of v
  | None => None
  end.

Inductive channel := Red | Green | Blue.

(** Modelled from the spec: the order in which the colour bytes go out for
    each of the two settings (the library that gives [TFT_RGB] and
    [TFT_BGR] their meaning is not part of this file). *)
Definition transmitted (o : color_order) : list channel :=
  match o with
  | TFT_RGB => [Red; Green; Blue]
  | TFT_BGR => [Blue; Green; Red]
  end.

(** *** The pins *)

Definition pin_names : list string :=
  ["TFT_MOSI"; "TFT_SCLK"; "TFT_CS"; "TFT_DC"; "TFT_RST"; "TFT_BL"].

Definition TFT_MOSI : option Z := int_macro "TFT_MOSI".
Definition TFT_SCLK : option Z := int_macro "TFT_SCLK".
Definition TFT_CS : option Z := int_macro "TFT_CS".
Definition TFT_DC : option Z := int_macro "TFT_DC".
Definition TFT_RST : option Z := int_macro "TFT_RST".
Definition TFT_BL : option Z := int_macro "TFT_BL".

(** A pin set to -1 is not wired. *)
Definition NOT_CONNECTED : Z := (-1)%Z.

Definition valid_pin (z : Z) : Prop := (0 <= z)%Z \/ z = NOT_CONNECTED.

(** The macros of the table that carry an integer, with that integer. *)
Fixpoint int_defs (t : list (string * value)) : list (string * Z) :=
  match t with
  | [] => []
  | (n, VInt z) :: t' => (n, z) :: int_defs t'
  | _ :: t' => int_defs t'
  end.

(** The directives that define one of the pin names. *)
Definition pin_defs : list (string * value) :=
  filter (fun d => member (fst d) pin_names) macros.

(** The pin numbers, by signal. *)
Definition pins : list (string * Z) := int_defs pin_defs.

Definition connected_pins : list (string * Z) :=
  filter (fun p => negb (snd p =? NOT_CONNECTED)%Z) pins.

Definition unconnected_pins : list (string * Z) :=
  filter (fun p => (snd p =? NOT_CONNECTED)%Z) pins.

(** *** The bus *)

Definition SPI_FREQUENCY : option Z := int_macro "SPI_FREQUENCY".

(** *** The shape of the file *)

(** A line that is blank, a comment or a [#define]. *)
Definition flat_line (l : line) : bool :=
  match l with
  | Blank | Comment | Define _ _ => true
  | Directive _ | Code _ => false
  end.

Definition is_define (l : line) : bool :=
  match l with Define _ _ => true | _ => false end.

(** The directive words of conditional compilation. *)
Definition conditional_words : list string :=
  ["if"; "ifdef"; "ifndef"; "elif"; "else"; "endif"].

Definition is_conditional (l : line) : bool :=
  match l with
  | Directive w => member w conditional_words
  | _ => false
  end.

Definition is_code (l : line) : bool :=
  match l with Code _ => true | _ => false end.

(** A replacement text that is a single constant, or nothing. *)
Definition constant (v : value) : bool :=
  match v with VRaw _ => false | _ => true end.

(** Classifying line by line is sound only when no comment or directive
    runs over a line end. *)
Definition ends_in_backslash (s : string) : bool :=
  ends_with "\" s.

Definition self_contained (s : string) : bool :=
  negb (contains "/*" s) && negb (ends_in_backslash s).

(** Decimal notation of an integer, as it is printed in a label. *)
Definition decimal (z : Z) : string :=
  NilEmpty.string_of_int (Z.to_int z).

(** [p] is a piece of [s]. *)
Definition occurs_in (p s : string) : Prop :=
  exists a b, s = a ++ p ++ b.

(** The text a label uses for a panel of [h] by [w] pixels. *)
Definition geometry_label (h w : Z) : string :=
  decimal h ++ "x" ++ decimal w.

(** A list of names without repetition, decided by comparison. *)
Fixpoint distinct (l : list string) : bool :=
  match l with
  | [] => true
  | n :: l' => negb (member n l') && distinct l'
  end.

End Setup.

(** ** The rest of the header: fonts, disabled directives, layout *)

Module Layout.

Import Cpp Setup.

(** The macro table that an arbitrary list of lines gives. *)
Definition table_of (ls : list string) : list (string * value) :=
  defines (map classify ls).

(** The library's font switches are the macros named [LOAD_...]. *)
Definition font_prefix : string := "LOAD_".

Definition font_defs : list (string * value) :=
  filter (fun d => prefix font_prefix (fst d)) macros.

(** A comment line with its two slashes taken away. *)
Definition uncomment (l : string) : string :=
  match ltrim l with
  | String "/"%char (String "/"%char r) => r
  | _ => l
  end.

(** The names of the directives that the lines keep behind [//]: a comment
    line that would be a [#define] without its slashes. *)
Fixpoint disabled_names (ls : list string) : list string :=
  match ls with
  | [] => []
  | l :: ls' =>
      match classify l, classify (uncomment l) with
      | Comment, Define n _ => n :: disabled_names ls'
      | _, _ => disabled_names ls'
      end
  end.

(** A replacement text that the preprocessor would expand again, because it
    is the name of a macro of the table [t]. *)
Definition rescanned (t : list (string * value)) (v : value) : bool :=
  match v with
  | VSym s => defined s t
  | _ => false
  end.

(** The identifiers that the table uses as values. *)
Fixpoint symbols (t : list (string * value)) : list string :=
  match t with
  | [] => []
  | (_, VSym s) :: t' => s :: symbols t'
  | _ :: t' => symbols t'
  end.

End Layout.

(** ** Facts about the preprocessor model *)

Module CppFacts.

Import Cpp.

(** Trimming on the right never removes a leading non-blank character. *)
Lemma rtrim_head (c : ascii) (s : string) :
  is_space c = false -> exists r, rtrim (String c s) = String c r.
Proof.
  intros Hc. simpl. destruct (rtrim s) as [|d r].
  - rewrite Hc. now exists EmptyString.
  - now exists (String d r).
Qed.

(** A line that starts with [//] is a comment whatever follows: a
    [#define] behind the two slashes defines nothing. *)
Lemma classify_line_comment (s : string) :
  classify ("//" ++ s) = Comment.
Proof.
  unfold classify, trim.
  change (ltrim ("//" ++ s)) with (String "/" (String "/" s)).
  destruct (rtrim_head "/" (String "/" s) eq_refl) as [r ->].
  reflexivity.
Qed.

(** Blanks before the two slashes change nothing. *)
Lemma classify_indented_comment (c : ascii) (s : string) :
  is_space c = true -> classify (String c ("//" ++ s)) = Comment.
Proof.
  intros Hc.
  assert (Hsp : c = " "%char \/ c = "009"%char).
  { unfold is_space in Hc. apply orb_true_iff in Hc as [H|H];
      apply Ascii.eqb_eq in H; auto. }
  destruct Hsp as [->| ->]; unfold classify, trim;
    change (ltrim (String _ ("//" ++ s))) with (String "/" (String "/" s));
    destruct (rtrim_head "/" (String "/" s) eq_refl) as [r ->];
    reflexivity.
Qed.

Lemma prefix_cons (c : ascii) (p s : string) :
  prefix (String c p) (String c s) = prefix p s.
Proof. simpl. destruct (ascii_dec c c) as [_|Hc]; [reflexivity | now contradiction Hc]. Qed.

(** One step of the comment scan. *)
Lemma strip_comment_step (b : bool) (c : ascii) (s : string) :
  strip_comment b (String c s) =
  if b then
    match s with
    | String d s'' =>
        if (c =? "092")%char
        then String c (String d (strip_comment true s''))
        else String c (strip_comment (negb (c =? Header.dquote)%char) s)
    | EmptyString => String c EmptyString
    end
  else if (c =? "/")%char then
    match s with
    | String "/"%char _ => EmptyString
    | _ => String c (strip_comment false s)
    end
  else String c (strip_comment (c =? Header.dquote)%char s).
Proof. reflexivity. Qed.

(** Removing the comment only ever removes a tail of the line. *)
Lemma strip_comment_prefix (n : nat) :
  forall (s : string) (b : bool),
    String.length s <= n -> prefix (strip_comment b s) s = true.
Proof.
  induction n as [|n IH]; intros s b Hlen.
  - destruct s; [reflexivity | simpl in Hlen; lia].
  - destruct s as [|c s]; [reflexivity|].
    simpl in Hlen. rewrite strip_comment_step.
    assert (Hone : forall b', prefix (String c (strip_comment b' s)) (String c s) = true).
    { intros b'. rewrite prefix_cons. apply IH. lia. }
    destruct b.
    + destruct s as [|d s].
      * now rewrite prefix_cons.
      * destruct (c =? "092")%char; [|apply Hone].
        rewrite !prefix_cons. apply IH. simpl in Hlen. lia.
    + destruct (c =? "/")%char; [|apply Hone].
      destruct s as [|d s]; [apply Hone|].
      destruct (Ascii.eqb_spec d "/") as [->|Hd]; [reflexivity|].
      destruct d as [[] [] [] [] [] [] [] []]; try apply Hone.
      now contradiction Hd.
Qed.

(** [lookup] finds nothing exactly when no directive carries the name. *)
Lemma lookup_None_count (n : string) (t : list (string * value)) :
  lookup n t = None <-> count_defs n t = 0.
Proof.
  unfold count_defs. induction t as [|[m v] t IH]; simpl.
  - tauto.
  - destruct (m =? n)%string; simpl.
    + split; [discriminate | lia].
    + exact IH.
Qed.

(** A name that no directive carries is counted zero times. *)
Lemma count_defs_notin (n : string) (t : list (string * value)) :
  ~ In n (map fst t) -> count_defs n t = 0.
Proof.
  unfold count_defs. induction t as [|[m v] t IH]; simpl; intros Hn.
  - reflexivity.
  - destruct (String.eqb_spec m n) as [->|Hm].
    + exfalso. apply Hn. now left.
    + apply IH. intros Hin. apply Hn. now right.
Qed.

(** In a table whose names are pairwise different every name is defined at
    most once. *)
Lemma count_defs_NoDup (t : list (string * value)) :
  NoDup (map fst t) -> forall n, count_defs n t <= 1.
Proof.
  induction t as [|[m v] t IH]; simpl; intros Hnd n.
  - unfold count_defs. simpl. lia.
  - inversion Hnd as [|x l Hnotin Hrest]; subst.
    unfold count_defs. simpl.
    destruct (String.eqb_spec m n) as [->|Hm].
    + simpl. fold (count_defs n t).
      rewrite (count_defs_notin n t Hnotin). lia.
    + apply IH. exact Hrest.
Qed.

(** The value read from a body is never raw when the body is empty, and an
    empty body is the only way to a flag. *)
Lemma read_value_flag (b : string) :
  read_value b = VFlag <-> b = EmptyString.
Proof.
  split; [|now intros ->].
  destruct b as [|c r]; [reflexivity|].
  unfold read_value.
  destruct (c =? "-")%char.
  - destruct (int_literal (ltrim r)); discriminate.
  - destruct (is_digit c).
    + destruct (int_literal (String c r)); discriminate.
    + destruct (c =? Header.dquote)%char.
      * destruct (str_content r); discriminate.
      * destruct (is_ident_start c && all_chars is_ident_char r); discriminate.
Qed.

End CppFacts.

(** ** Facts about the helper functions of [Setup] *)

Module SetupFacts.

Import Cpp Setup.

Lemma member_In (n : string) (l : list string) :
  member n l = true <-> In n l.
Proof.
  unfold member. rewrite existsb_exists. split.
  - intros [m [Hin Heq]]. apply String.eqb_eq in Heq. now subst.
  - intros Hin. exists n. split; [exact Hin | apply String.eqb_refl].
Qed.

Lemma distinct_NoDup (l : list string) :
  distinct l = true -> NoDup l.
Proof.
  induction l as [|n l IH]; simpl; intros H.
  - constructor.
  - apply andb_true_iff in H as [Hn Hl].
    constructor; [|now apply IH].
    intros Hin. apply member_In in Hin.
    rewrite Hin in Hn. discriminate.
Qed.

Lemma prefix_occurs (p : string) :
  forall s, prefix p s = true -> exists b, s = p ++ b.
Proof.
  induction p as [|c p IH]; intros s H.
  - now exists s.
  - destruct s as [|d s]; [discriminate|].
    simpl in H. destruct (ascii_dec c d) as [->|]; [|discriminate].
    destruct (IH s H) as [b ->]. now exists b.
Qed.

(** The boolean search finds genuine occurrences only. *)
Lemma contains_occurs (p : string) :
  forall s, contains p s = true -> occurs_in p s.
Proof.
  induction s as [|c s IH]; intros H.
  - destruct p; [|discriminate]. now exists EmptyString, EmptyString.
  - cbn [contains] in H. apply orb_true_iff in H as [H|H].
    + destruct (prefix_occurs p _ H) as [b Hb].
      exists EmptyString, b. exact Hb.
    + destruct (IH H) as [a [b ->]].
      now exists (String c a), b.
Qed.

Lemma flat_line_cases (l : line) :
  flat_line l = true <->
  l = Blank \/ l = Comment \/ exists n b, l = Define n b.
Proof.
  split.
  - destruct l; intros H; try discriminate; eauto.
  - intros [->|[->|[n [b ->]]]]; reflexivity.
Qed.

(** The macro table of [User_Setup.h], computed from its text. *)
Lemma macros_table :
  macros =
  [ ("USER_SETUP_INFO", VStr "BatController ST7735 160x128");
    ("ST7735_DRIVER", VFlag);
    ("TFT_WIDTH", VInt 128);
    ("TFT_HEIGHT", VInt 160);
    ("LOAD_GLCD", VFlag);
    ("LOAD_FONT2", VFlag);
    ("ST7735_BLACKTAB", VFlag);
    ("TFT_RGB_ORDER", VSym "TFT_BGR");
    ("TFT_MOSI", VInt 21);
    ("TFT_SCLK", VInt 22);
    ("TFT_CS", VInt (-1));
    ("TFT_DC", VInt 5);
    ("TFT_RST", VInt 17);
    ("TFT_BL", VInt 0);
    ("SPI_FREQUENCY", VInt 27000000) ].
Proof. vm_compute. reflexivity. Qed.

Lemma macro_names_NoDup : NoDup (map fst macros).
Proof. apply distinct_NoDup. vm_compute. reflexivity. Qed.

(** No comment and no directive of the header runs over a line end, so
    reading it line by line loses nothing. *)
Lemma lines_self_contained :
  forallb self_contained Header.User_Setup_h = true.
Proof. vm_compute. reflexivity. Qed.

(** The two tab variants that the header keeps behind [//] define
    nothing, and neither does the warning switch of line 12. *)
Lemma commented_out_defines :
  classify "// #define ST7735_GREENTAB" = Comment /\
  classify "// #define ST7735_REDTAB" = Comment /\
  classify "//#define DISABLE_ALL_LIBRARY_WARNINGS" = Comment.
Proof.
  split; [|split].
  - apply (CppFacts.classify_line_comment " #define ST7735_GREENTAB").
  - apply (CppFacts.classify_line_comment " #define ST7735_REDTAB").
  - apply (CppFacts.classify_line_comment "#define DISABLE_ALL_LIBRARY_WARNINGS").
Qed.

(** A comment after the directive does not reach the macro's value: the
    two font switches are plain flags. *)
Lemma font_flags :
  LOAD_GLCD = true /\ LOAD_FONT2 = true /\
  lookup "LOAD_GLCD" macros = Some VFlag /\
  lookup "LOAD_FONT2" macros = Some VFlag.
Proof. vm_compute. repeat split. Qed.

End SetupFacts.

(** ** The properties of the configuration *)

Import Cpp Setup.

(** C1: the header defines exactly the six pin macros TFT_MOSI, TFT_SCLK,
    TFT_CS, TFT_DC, TFT_RST and TFT_BL, each once and each with an integer
    value; every such value is a GPIO number (at least 0) or -1 for "not
    connected", and at most one pin is -1.  The only other integer macros of
    the file are the two panel dimensions and the bus frequency. *)
Theorem pin_macros_six_valid :
  map fst pin_defs = pin_names /\
  List.length pin_defs = 6 /\
  map snd pin_defs = map (fun p => VInt (snd p)) pins /\
  Forall (fun p => valid_pin (snd p)) pins /\
  List.length unconnected_pins <= 1 /\
  map fst (int_defs macros) =
    (["TFT_WIDTH"; "TFT_HEIGHT"] ++ pin_names ++ ["SPI_FREQUENCY"])%list.
Proof.
  split; [vm_compute; reflexivity|].
  split; [vm_compute; reflexivity|].
  split; [vm_compute; reflexivity|].
  split; [|split; [vm_compute; lia | vm_compute; reflexivity]].
  assert (Hpins : pins =
    [("TFT_MOSI", 21%Z); ("TFT_SCLK", 22%Z); ("TFT_CS", (-1)%Z);
     ("TFT_DC", 5%Z); ("TFT_RST", 17%Z); ("TFT_BL", 0%Z)])
    by (vm_compute; reflexivity).
  rewrite Hpins. unfold valid_pin, NOT_CONNECTED.
  repeat (apply Forall_cons; [simpl; lia|]).
  apply Forall_nil.
Qed.

(** C2: exactly one driver selection flag is defined, and it is
    ST7735_DRIVER. *)
Theorem driver_flag_is_ST7735 :
  driver_flags = [("ST7735_DRIVER", VFlag)] /\
  ST7735_DRIVER = true /\
  count_defs "ST7735_DRIVER" macros = 1.
Proof.
  split; [vm_compute; reflexivity|].
  split; vm_compute; reflexivity.
Qed.

(** C3: TFT_WIDTH and TFT_HEIGHT are both defined, with the positive
    integer values 128 and 160. *)
Theorem geometry_defined_positive :
  exists w h : Z,
    TFT_WIDTH = Some w /\ TFT_HEIGHT = Some h /\
    w = 128%Z /\ h = 160%Z /\ (0 < w)%Z /\ (0 < h)%Z.
Proof.
  exists 128%Z, 160%Z.
  split; [vm_compute; reflexivity|].
  split; [vm_compute; reflexivity|].
  repeat split; lia.
Qed.

(** C4: TFT_RGB_ORDER is defined, its value is one of the two orders
    TFT_RGB and TFT_BGR, and here it is TFT_BGR: the colour bytes go out
    blue, green, red. *)
Theorem rgb_order_is_BGR :
  lookup "TFT_RGB_ORDER" macros = Some (VSym "TFT_BGR") /\
  exists o : color_order,
    TFT_RGB_ORDER = Some o /\
    (o = TFT_RGB \/ o = TFT_BGR) /\
    o = TFT_BGR /\
    transmitted o = [Blue; Green; Red].
Proof.
  split; [vm_compute; reflexivity|].
  exists TFT_BGR.
  split; [vm_compute; reflexivity|].
  split; [now right|].
  split; reflexivity.
Qed.

(** C5: of ST7735_GREENTAB, ST7735_BLACKTAB and ST7735_REDTAB exactly one
    is defined, and it is ST7735_BLACKTAB; the other two are not defined. *)
Theorem tab_flag_is_BLACKTAB :
  tab_flags = [("ST7735_BLACKTAB", VFlag)] /\
  ST7735_BLACKTAB = true /\
  ST7735_GREENTAB = false /\
  ST7735_REDTAB = false /\
  List.length (filter (fun n => defined n macros) tab_names) = 1.
Proof.
  split; [vm_compute; reflexivity|].
  split; [vm_compute; reflexivity|].
  split; [vm_compute; reflexivity|].
  split; vm_compute; reflexivity.
Qed.

(** C6: SPI_FREQUENCY is defined, once, as the positive integer
    27000000. *)
Theorem spi_frequency_27MHz :
  count_defs "SPI_FREQUENCY" macros = 1 /\
  exists f : Z,
    SPI_FREQUENCY = Some f /\ f = 27000000%Z /\ (0 < f)%Z.
Proof.
  split; [vm_compute; reflexivity|].
  exists 27000000%Z.
  split; [vm_compute; reflexivity|].
  split; [reflexivity | lia].
Qed.

(** C7: whatever the name, at most one active [#define] of the header
    carries it. *)
Theorem macro_defined_at_most_once :
  forall n : string, count_defs n macros <= 1.
Proof.
  apply CppFacts.count_defs_NoDup.
  exact SetupFacts.macro_names_NoDup.
Qed.

(** C8: the header has 46 lines; each of them is blank, a comment or a
    [#define]; there is no conditional directive, no other directive and no
    line of code; and every macro is defined as a plain constant (or as
    nothing), never as an expression or statement. *)
Theorem header_is_flat_defines :
  List.length Header.User_Setup_h = 46 /\
  Forall (fun l => classify l = Blank \/ classify l = Comment \/
                   exists n b, classify l = Define n b)
         Header.User_Setup_h /\
  filter is_conditional lines = [] /\
  filter is_code lines = [] /\
  filter (fun l => negb (flat_line l)) lines = [] /\
  Forall (fun d => constant (snd d) = true) macros.
Proof.
  split; [reflexivity|].
  split.
  { apply Forall_forall. intros l Hl.
    apply SetupFacts.flat_line_cases.
    assert (Hall : forallb (fun l => flat_line (classify l))
                           Header.User_Setup_h = true)
      by (vm_compute; reflexivity).
    rewrite forallb_forall in Hall. now apply Hall. }
  split; [vm_compute; reflexivity|].
  split; [vm_compute; reflexivity|].
  split; [vm_compute; reflexivity|].
  apply Forall_forall. intros d Hd.
  assert (Hall : forallb (fun d => constant (snd d)) macros = true)
    by (vm_compute; reflexivity).
  rewrite forallb_forall in Hall. now apply Hall.
Qed.

(** C9: the pins that are connected (TFT_MOSI 21, TFT_SCLK 22, TFT_DC 5,
    TFT_RST 17, TFT_BL 0) have pairwise different GPIO numbers. *)
Theorem connected_pins_distinct :
  connected_pins =
    [("TFT_MOSI", 21%Z); ("TFT_SCLK", 22%Z); ("TFT_DC", 5%Z);
     ("TFT_RST", 17%Z); ("TFT_BL", 0%Z)] /\
  NoDup (map snd connected_pins).
Proof.
  assert (Hc : connected_pins =
    [("TFT_MOSI", 21%Z); ("TFT_SCLK", 22%Z); ("TFT_DC", 5%Z);
     ("TFT_RST", 17%Z); ("TFT_BL", 0%Z)]) by (vm_compute; reflexivity).
  split; [exact Hc|].
  rewrite Hc. simpl.
  repeat (apply NoDup_cons; [simpl; intuition discriminate|]).
  apply NoDup_nil.
Qed.

(** C10: the text of USER_SETUP_INFO agrees with the configuration: it
    names the chip of the driver flag that is defined (ST7735) and the
    geometry "160x128", which is TFT_HEIGHT by TFT_WIDTH, the width being
    the smaller of the two. *)
Theorem setup_info_consistent :
  exists (info d : string) (w h : Z),
    USER_SETUP_INFO = Some info /\
    map fst driver_flags = [d] /\
    TFT_WIDTH = Some w /\ TFT_HEIGHT = Some h /\
    driver_chip d = "ST7735" /\
    occurs_in (driver_chip d) info /\
    geometry_label h w = "160x128" /\
    occurs_in (geometry_label h w) info /\
    (w < h)%Z.
Proof.
  exists "BatController ST7735 160x128", "ST7735_DRIVER", 128%Z, 160%Z.
  split; [vm_compute; reflexivity|].
  split; [vm_compute; reflexivity|].
  split; [vm_compute; reflexivity|].
  split; [vm_compute; reflexivity|].
  split; [vm_compute; reflexivity|].
  split; [apply SetupFacts.contains_occurs; vm_compute; reflexivity|].
  split; [vm_compute; reflexivity|].
  split; [apply SetupFacts.contains_occurs; vm_compute; reflexivity|].
  lia.
Qed.

(** ** Facts about macro tables *)

Module LayoutFacts.

Import Cpp Setup Layout.





(** With pairwise different names, [lookup] finds exactly the entries of
    the table. *)
Lemma lookup_In (n : string) (v : value) (t : list (string * value)) :
  NoDup (map fst t) -> (lookup n t = Some v <-> In (n, v) t).
Proof.
  induction t as [|[m w] t IH]; simpl; intros Hnd.
  - split; [discriminate | tauto].
  - inversion Hnd as [|x l Hnotin Hrest]; subst.
    destruct (String.eqb_spec m n) as [->|Hm].
    + split.
      * intros [= ->]. now left.
      * intros [[= ->]|Hin]; [reflexivity|].
        exfalso. apply Hnotin.
        change n with (fst (n, v)). now apply in_map.
    + rewrite (IH Hrest). split.
      * intros Hin. now right.
      * intros [[= Heq _]|Hin]; [now contradiction Hm | exact Hin].
Qed.

(** Two tables with the same entries and no repeated name answer every
    lookup alike. *)
Lemma lookup_Permutation (t t' : list (string * value)) :
  NoDup (map fst t) -> Permutation t t' ->
  forall n, lookup n t' = lookup n t.
Proof.
  intros Hnd Hp n.
  assert (Hnd' : NoDup (map fst t')).
  { apply (Permutation_NoDup (l := map fst t)); [|exact Hnd].
    now apply Permutation_map. }
  destruct (lookup n t) as [v|] eqn:Ht.
  - apply (lookup_In n v t' Hnd').
    apply (Permutation_in _ Hp).
    now apply (lookup_In n v t Hnd).
  - destruct (lookup n t') as [v'|] eqn:Ht'; [|reflexivity].
    apply (lookup_In n v' t' Hnd') in Ht'.
    apply (Permutation_in _ (Permutation_sym Hp)) in Ht'.
    apply (lookup_In n v' t Hnd) in Ht'.
    rewrite Ht in Ht'. discriminate.
Qed.

(** Moving lines around moves their directives around, nothing more. *)
Lemma defines_Permutation (ls ls' : list line) :
  Permutation ls ls' -> Permutation (defines ls) (defines ls').
Proof.
  induction 1 as [|x l l' Hp IH|x y l|l l' l'' Hp1 IH1 Hp2 IH2].
  - constructor.
  - destruct x; simpl; try exact IH. now constructor.
  - destruct x, y; simpl; try apply Permutation_refl; constructor.
  - now apply (Permutation_trans IH1).
Qed.

Lemma prefix_app (p b : string) : prefix p (p ++ b) = true.
Proof.
  induction p as [|c p IH]; [now destruct b|].
  simpl. destruct (ascii_dec c c) as [_|Hc]; [exact IH | now contradiction Hc].
Qed.

Lemma contains_prefix (p s : string) :
  prefix p s = true -> contains p s = true.
Proof.
  intros H. destruct s as [|c s]; cbn [contains]; now rewrite H.
Qed.

(** The search misses no occurrence. *)
Lemma contains_complete (p s : string) :
  occurs_in p s -> contains p s = true.
Proof.
  intros [a [b ->]]. induction a as [|c a IH].
  - change (EmptyString ++ p ++ b) with (p ++ b).
    apply contains_prefix. apply prefix_app.
  - cbn [append contains]. rewrite IH. apply orb_true_r.
Qed.

Lemma ends_with_complete (suf a : string) :
  ends_with suf (a ++ suf) = true.
Proof.
  induction a as [|c a IH].
  - change (EmptyString ++ suf) with suf.
    destruct suf; cbn [ends_with]; now rewrite String.eqb_refl.
  - cbn [append ends_with]. rewrite IH. apply orb_true_r.
Qed.


End LayoutFacts.

(** ** Further properties of the header *)

Import Layout.

(** X1: the font switches of the header are LOAD_GLCD and LOAD_FONT2 and no
    other; both are plain flags, the comment that follows each directive on
    its line being no part of the macro. *)
Theorem font_switches_are_flags :
  font_defs = [("LOAD_GLCD", VFlag); ("LOAD_FONT2", VFlag)] /\
  classify (nth 26 Header.User_Setup_h EmptyString) =
    Define "LOAD_GLCD" EmptyString /\
  classify (nth 27 Header.User_Setup_h EmptyString) =
    Define "LOAD_FONT2" EmptyString.
Proof.
  split; [vm_compute; reflexivity|].
  split; vm_compute; reflexivity.
Qed.

(** X2: the directives that the header keeps behind [//] are those for
    DISABLE_ALL_LIBRARY_WARNINGS, ST7735_GREENTAB and ST7735_REDTAB, and none
    of these names is defined: the library's warnings stay on and the two
    other tabs stay off. *)
Theorem disabled_directives_undefined :
  disabled_names Header.User_Setup_h =
    ["DISABLE_ALL_LIBRARY_WARNINGS"; "ST7735_GREENTAB"; "ST7735_REDTAB"] /\
  Forall (fun n => lookup n macros = None /\ count_defs n macros = 0)
         (disabled_names Header.User_Setup_h).
Proof.
  assert (Hd : disabled_names Header.User_Setup_h =
    ["DISABLE_ALL_LIBRARY_WARNINGS"; "ST7735_GREENTAB"; "ST7735_REDTAB"])
    by (vm_compute; reflexivity).
  split; [exact Hd|].
  rewrite Hd.
  repeat (apply Forall_cons;
          [split; [vm_compute; reflexivity
                  | apply CppFacts.lookup_None_count; vm_compute; reflexivity]|]).
  apply Forall_nil.
Qed.

(** X3: no macro of the header has another macro of the header as its
    value, so no value is expanded a second time.  The one identifier used
    as a value, TFT_BGR, is not defined here: it is left to the library. *)
Theorem no_macro_refers_to_another :
  Forall (fun d => rescanned macros (snd d) = false) macros /\
  symbols macros = ["TFT_BGR"] /\
  lookup "TFT_BGR" macros = None.
Proof.
  split.
  - apply Forall_forall. intros d Hd.
    assert (Hall : forallb (fun d => negb (rescanned macros (snd d))) macros = true)
      by (vm_compute; reflexivity).
    rewrite forallb_forall in Hall.
    apply negb_true_iff. now apply Hall.
  - split; vm_compute; reflexivity.
Qed.

(** X4: the order of the lines does not matter: however the 46 lines are
    rearranged, every name has the value (or the absence of value) that the
    header gives it. *)
Theorem reordering_lines_keeps_macros :
  forall ls' : list string,
    Permutation Header.User_Setup_h ls' ->
    forall n : string, lookup n (table_of ls') = lookup n macros.
Proof.
  intros ls' Hp n.
  apply LayoutFacts.lookup_Permutation.
  - exact SetupFacts.macro_names_NoDup.
  - unfold macros, lines, table_of.
    apply LayoutFacts.defines_Permutation.
    now apply Permutation_map.
Qed.

Lemma reordering_lines_keeps_macros_witness :
  Permutation Header.User_Setup_h (rev Header.User_Setup_h) /\
  forall n : string,
    lookup n (table_of (rev Header.User_Setup_h)) = lookup n macros.
Proof.
  split.
  - apply Permutation_rev.
  - apply (reordering_lines_keeps_macros (rev Header.User_Setup_h)).
    apply Permutation_rev.
Defined.

(** X5: no line of the header opens a block comment and none ends in a
    backslash: nothing runs from one line into the next. *)
Theorem header_lines_self_contained :
  Forall (fun l => ~ occurs_in "/*" l /\ forall a : string, l <> a ++ "\")
         Header.User_Setup_h.
Proof.
  apply Forall_forall. intros l Hl.
  pose proof SetupFacts.lines_self_contained as Hall.
  rewrite forallb_forall in Hall. specialize (Hall l Hl).
  unfold self_contained, ends_in_backslash in Hall.
  apply andb_true_iff in Hall as [Hc He].
  apply negb_true_iff in Hc. apply negb_true_iff in He.
  split.
  - intros Hocc. apply LayoutFacts.contains_complete in Hocc.
    rewrite Hocc in Hc. discriminate.
  - intros a ->. rewrite LayoutFacts.ends_with_complete in He.
    discriminate.
Qed.

(** X6: the header defines fifteen macros and no more: the label, the
    driver, the two dimensions, two fonts, the tab, the colour order, six
    pins and the bus frequency, with these values. *)
Theorem header_macro_table :
  macros =
  [ ("USER_SETUP_INFO", VStr "BatController ST7735 160x128");
    ("ST7735_DRIVER", VFlag);
    ("TFT_WIDTH", VInt 128);
    ("TFT_HEIGHT", VInt 160);
    ("LOAD_GLCD", VFlag);
    ("LOAD_FONT2", VFlag);
    ("ST7735_BLACKTAB", VFlag);
    ("TFT_RGB_ORDER", VSym "TFT_BGR");
    ("TFT_MOSI", VInt 21);
    ("TFT_SCLK", VInt 22);
    ("TFT_CS", VInt (-1));
    ("TFT_DC", VInt 5);
    ("TFT_RST", VInt 17);
    ("TFT_BL", VInt 0);
    ("SPI_FREQUENCY", VInt 27000000) ] /\
  List.length macros = 15.
Proof. split; vm_compute; reflexivity. Qed.

